(** * pkg/volume/util/types: the operation envelope and its outcome classifier

    A shallow embedding of [types.go]: the timeout error with its
    constructor and classifier, and [GeneratedOperations.Run] with Go's
    deferred calls, named results and panics written out as explicit
    state passing. *)

From Stdlib Require Import String List Bool Arith Lia.
Import ListNotations.
Open Scope string_scope.
Open Scope list_scope.

(** ** Panics *)

(** The value carried by a panic: either the runtime error raised by a nil
    dereference (or by calling a nil func value), or the argument of an
    explicit [panic(v)]. *)
Inductive panic_value : Type :=
| NilDereference
| PanicOf (v : string).

(** A Go call either returns or panics. *)
Inductive outcome (A : Type) : Type :=
| Returned (a : A)
| Panicked (v : panic_value).
Arguments Returned {A} a.
Arguments Panicked {A} v.

(** ** Errors *)

(** [type OperationTimedOutError struct { msg string }] *)
Record OperationTimedOutError : Type := { msg : string }.

(** A pointer is [None] when nil. *)
Definition ptr (A : Type) : Type := option A.

(** Values of the interface type [error], by dynamic type: the nil
    interface, a [*OperationTimedOutError] (whose pointer may itself be
    nil), and the other kinds that reach this package: a plain message, an
    error wrapping a cause, and the error built from a recovered panic. *)
Inductive error : Type :=
| ErrNil
| ErrTimedOut (p : ptr OperationTimedOutError)
| ErrString (s : string)
| ErrWrap (s : string) (cause : error)
| ErrRecovered (v : panic_value).

Inductive dyn_type : Type :=
| PtrOperationTimedOutError
| PtrErrorString
| PtrWrapError
| PtrRecoveredError.

(** The dynamic type held by an interface value; the nil interface has none. *)
Definition dynamic_type (err : error) : option dyn_type :=
  match err with
  | ErrNil => None
  | ErrTimedOut _ => Some PtrOperationTimedOutError
  | ErrString _ => Some PtrErrorString
  | ErrWrap _ _ => Some PtrWrapError
  | ErrRecovered _ => Some PtrRecoveredError
  end.

(** What [errors.Unwrap] would return; the classifier never calls it. *)
Definition Unwrap (err : error) : error :=
  match err with
  | ErrWrap _ cause => cause
  | _ => ErrNil
  end.

(** [func (err *OperationTimedOutError) Error() string { return err.msg }] *)
Definition Error (err : ptr OperationTimedOutError) : outcome string :=
  match err with
  | Some e => Returned (msg e)
  | None => Panicked NilDereference
  end.

(** [func NewOperationTimedOutError(msg string) *OperationTimedOutError] *)
Definition NewOperationTimedOutError (m : string) : ptr OperationTimedOutError :=
  Some {| msg := m |}.

(** The comma-ok type assertion [err.( *OperationTimedOutError)]. *)
Definition assert_PtrOperationTimedOutError (err : error)
  : ptr OperationTimedOutError * bool :=
  match err with
  | ErrTimedOut p => (p, true)
  | _ => (None, false)
  end.

(** [func IsOperationTimeOutError(err error) bool] *)
Definition IsOperationTimeOutError (err : error) : bool :=
  let '(_, ok) := assert_PtrOperationTimedOutError err in
  if ok then true else false.

(** ** Operation status and keys *)

Definition OperationStatus : Type := string.
Definition OperationFinished : OperationStatus := "Finished".
Definition OperationInProgress : OperationStatus := "InProgress".
Definition OperationStateNoChange : OperationStatus := "NoChange".
Definition VolumeResizerKey : string := "volume.kubernetes.io/storage-resizer".

(** ** Panic recovery *)

(** Modelled from the spec: [runtime.RecoverFromPanic] of
    k8s.io/apimachinery/pkg/util/runtime is deferred by [Run] with
    [&detailedErr], and its body is not among the sources.  Spec 4.1, step 3:
    "any panic raised by operationFunc must be intercepted, converted into
    the detailedError output [...] and must NOT propagate past the Run
    call."  It is given the panic in flight, if any, and the content of the
    pointed cell; it yields the panic still in flight and the new content. *)
Definition RecoverFromPanic (panicking : option panic_value) (cell : error)
  : option panic_value * error :=
  match panicking with
  | None => (None, cell)
  | Some v => (None, ErrRecovered v)
  end.

(** ** The envelope *)

Section Envelope.

(** Whatever the caller's closures can reach: logs, metrics, counters. *)
Context {World : Type}.

(** How a callback finishes. *)
Inductive completion : Type :=
| Done
| Panics (v : panic_value).

(** What a call of [func() (eventErr error, detailedErr error)] yields.
    A panicking call still holds its own two result variables, with
    whatever it had assigned to them. *)
Inductive op_result : Type :=
| OpReturn (eventErr detailedErr : error)
| OpPanic (v : panic_value) (eventErr detailedErr : error).

(** [&eventErr] and [&detailedErr]. *)
Inductive addr : Type :=
| AddrEventErr
| AddrDetailedErr.

Definition addr_eqb (p q : addr) : bool :=
  match p, q with
  | AddrEventErr, AddrEventErr => true
  | AddrDetailedErr, AddrDetailedErr => true
  | _, _ => false
  end.

(** What a func taking a pointer to an error has at hand when [Run] calls
    it as a deferred call: the pointer and the content of its cell; the
    pointers to results of [Run] that callbacks called before it have kept,
    with the content of their cells; the panic in flight, which it learns
    of by calling [recover()]; and the world. *)
Record hook_call : Type := {
  arg : addr;
  cell : error;
  reach : list (addr * error);
  in_flight : option panic_value;
  before : World
}.

(** What the call has done when it ends: it returned or panicked; it did
    or did not call [recover()]; it left a content in the cell it was
    pointed at; it assigned through pointers kept earlier; it did or did not
    keep the pointer it was handed; it left a world; and it assigned to
    fields of the envelope, which a closure that captured the envelope
    can. *)
Record hook_return_of (Assign : Type) : Type := {
  finish : completion;
  recovers : bool;
  leaves : error;
  through_kept : list (addr * error);
  keeps : bool;
  after : World;
  assigns : list Assign
}.
Arguments finish {Assign} _.
Arguments recovers {Assign} _.
Arguments leaves {Assign} _.
Arguments through_kept {Assign} _.
Arguments keeps {Assign} _.
Arguments after {Assign} _.
Arguments assigns {Assign} _.

(** An assignment to a field of the envelope.  What a closure reads of
    the envelope it captured is part of the closure. *)
#[warnings="-register-all"] Inductive field_write : Type :=
| SetOperationName (s : string)
| SetOperationFunc (f : option (World -> op_result * World * list field_write))
| SetEventRecorderFunc (f : option (hook_call -> hook_return_of field_write))
| SetCompleteFunc (f : option (hook_call -> hook_return_of field_write)).

Definition hook_return : Type := hook_return_of field_write.

(** A func taking a pointer to an error. *)
Definition hook : Type := hook_call -> hook_return.

(** [func() (eventErr error, detailedErr error)]: called on the world, it
    returns or panics, leaves a world, and may have assigned to fields of
    the envelope.  No pointer to a result of [Run] exists outside [Run]
    when it is called. *)
Definition operation : Type := World -> op_result * World * list field_write.

(** [type GeneratedOperations struct]; a func field is [None] when nil. *)
Record GeneratedOperations : Type := {
  OperationName : string;
  OperationFunc : option operation;
  EventRecorderFunc : option hook;
  CompleteFunc : option hook
}.

Definition assign (fw : field_write) (o : GeneratedOperations) : GeneratedOperations :=
  match fw with
  | SetOperationName s =>
      {| OperationName := s; OperationFunc := OperationFunc o;
         EventRecorderFunc := EventRecorderFunc o; CompleteFunc := CompleteFunc o |}
  | SetOperationFunc f =>
      {| OperationName := OperationName o; OperationFunc := f;
         EventRecorderFunc := EventRecorderFunc o; CompleteFunc := CompleteFunc o |}
  | SetEventRecorderFunc f =>
      {| OperationName := OperationName o; OperationFunc := OperationFunc o;
         EventRecorderFunc := f; CompleteFunc := CompleteFunc o |}
  | SetCompleteFunc f =>
      {| OperationName := OperationName o; OperationFunc := OperationFunc o;
         EventRecorderFunc := EventRecorderFunc o; CompleteFunc := f |}
  end.

(** Assignments take effect in the order they are made. *)
Definition assign_all (fws : list field_write) (o : GeneratedOperations)
  : GeneratedOperations :=
  fold_left (fun o' fw => assign fw o') fws o.

Inductive hook_field : Type :=
| FEventRecorderFunc
| FCompleteFunc.

(** An entry of the defer stack: the func value and its argument are
    evaluated when [defer] executes. *)
Inductive deferred : Type :=
| DeferHook (which : hook_field) (f : hook) (p : addr)
| DeferRecoverFromPanic (p : addr).

(** Calls made by [Run], as they happen; a hook call is recorded with the
    content it found in the cell it was pointed at. *)
Inductive event : Type :=
| CallOperationFunc
| CallHook (which : hook_field) (seen : error).

(** The activation of [Run]: the envelope the receiver points at, the two
    named results, the panic in flight, the pointers to the named results
    that callbacks have kept, the world, and the calls made so far. *)
Record activation : Type := {
  self : GeneratedOperations;
  eventErr : error;
  detailedErr : error;
  panicking : option panic_value;
  kept : list addr;
  world : World;
  trace : list event
}.

Definition load (p : addr) (a : activation) : error :=
  match p with
  | AddrEventErr => eventErr a
  | AddrDetailedErr => detailedErr a
  end.

Definition store (p : addr) (e : error) (a : activation) : activation :=
  match p with
  | AddrEventErr =>
      {| self := self a; eventErr := e; detailedErr := detailedErr a;
         panicking := panicking a; kept := kept a;
         world := world a; trace := trace a |}
  | AddrDetailedErr =>
      {| self := self a; eventErr := eventErr a; detailedErr := e;
         panicking := panicking a; kept := kept a;
         world := world a; trace := trace a |}
  end.

Definition set_self (o : GeneratedOperations) (a : activation) : activation :=
  {| self := o; eventErr := eventErr a; detailedErr := detailedErr a;
     panicking := panicking a; kept := kept a;
     world := world a; trace := trace a |}.

Definition set_panicking (p : option panic_value) (a : activation) : activation :=
  {| self := self a; eventErr := eventErr a; detailedErr := detailedErr a;
     panicking := p; kept := kept a;
     world := world a; trace := trace a |}.

Definition keep (p : addr) (a : activation) : activation :=
  {| self := self a; eventErr := eventErr a; detailedErr := detailedErr a;
     panicking := panicking a; kept := kept a ++ [p];
     world := world a; trace := trace a |}.

Definition set_world (w : World) (a : activation) : activation :=
  {| self := self a; eventErr := eventErr a; detailedErr := detailedErr a;
     panicking := panicking a; kept := kept a;
     world := w; trace := trace a |}.

Definition log_call (ev : event) (a : activation) : activation :=
  {| self := self a; eventErr := eventErr a; detailedErr := detailedErr a;
     panicking := panicking a; kept := kept a;
     world := world a; trace := trace a ++ [ev] |}.

(** Entry: both named results hold their zero value. *)
Definition enter (o : GeneratedOperations) (w : World) : activation :=
  {| self := o; eventErr := ErrNil; detailedErr := ErrNil;
     panicking := None; kept := []; world := w; trace := [] |}.

(** [return o.OperationFunc()]: the results are assigned only when the
    call returns; calling a nil func value panics. *)
Definition return_OperationFunc (a : activation) : activation :=
  match OperationFunc (self a) with
  | None => set_panicking (Some NilDereference) a
  | Some f =>
      let '(r, w, fws) := f (world a) in
      let a := log_call CallOperationFunc a in
      let a := set_self (assign_all fws (self a)) (set_world w a) in
      match r with
      | OpReturn e1 e2 => store AddrDetailedErr e2 (store AddrEventErr e1 a)
      | OpPanic v _ _ => set_panicking (Some v) a
      end
  end.

(** The panic in flight when a deferred call ends: its own if it
    panicked; none if it returned after [recover()]; otherwise the one that
    was in flight when it was called. *)
Definition panic_after (p : option panic_value) (r : hook_return)
  : option panic_value :=
  match finish r with
  | Panics v => Some v
  | Done => if recovers r then None else p
  end.

(** Assignments through kept pointers reach the cells whose pointer was
    indeed kept. *)
Definition write_through (ws : list (addr * error)) (a : activation) : activation :=
  fold_left
    (fun a' qe =>
       if existsb (addr_eqb (fst qe)) (kept a') then store (fst qe) (snd qe) a'
       else a')
    ws a.

(** One deferred call. *)
Definition run_deferred (d : deferred) (a : activation) : activation :=
  match d with
  | DeferRecoverFromPanic p =>
      let '(pending, e) := RecoverFromPanic (panicking a) (load p a) in
      set_panicking pending (store p e a)
  | DeferHook which f p =>
      let c := {| arg := p; cell := load p a;
                  reach := map (fun q => (q, load q a)) (kept a);
                  in_flight := panicking a; before := world a |} in
      let r := f c in
      let a := log_call (CallHook which (cell c)) a in
      let a := write_through (through_kept r) a in
      let a := store p (leaves r) a in
      let a := if keeps r then keep p a else a in
      let a := set_world (after r) a in
      let a := set_self (assign_all (assigns r) (self a)) a in
      set_panicking (panic_after (panicking a) r) a
  end.

(** The defer stack unwinds from its head, the last call deferred, and
    every entry runs, panic in flight or not. *)
Fixpoint unwind (ds : list deferred) (a : activation) : activation :=
  match ds with
  | [] => a
  | d :: ds' => unwind ds' (run_deferred d a)
  end.

(** [func (o *GeneratedOperations) Run() (eventErr, detailedErr error)],
    on a receiver that is not nil.  The result is the activation as [Run]
    leaves it; [result] reads what the caller gets. *)
Definition Run (o : GeneratedOperations) (w : World) : activation :=
  let a := enter o w in
  let ds := [] in
  let ds :=
    match CompleteFunc (self a) with
    | Some f => DeferHook FCompleteFunc f AddrDetailedErr :: ds
    | None => ds
    end in
  let ds :=
    match EventRecorderFunc (self a) with
    | Some f => DeferHook FEventRecorderFunc f AddrEventErr :: ds
    | None => ds
    end in
  let ds := DeferRecoverFromPanic AddrDetailedErr :: ds in
  let a := return_OperationFunc a in
  unwind ds a.

(** What the caller of [Run] gets: the two results, or the panic. *)
Inductive run_result : Type :=
| Returns (eventErr detailedErr : error)
| Propagates (v : panic_value).

Definition result (a : activation) : run_result :=
  match panicking a with
  | None => Returns (eventErr a) (detailedErr a)
  | Some v => Propagates v
  end.

End Envelope.

Arguments hook_call World : clear implicits.
Arguments hook_return World : clear implicits.
Arguments field_write World : clear implicits.
Arguments hook World : clear implicits.
Arguments operation World : clear implicits.
Arguments GeneratedOperations World : clear implicits.
Arguments activation World : clear implicits.
Arguments finish {World Assign} _.
Arguments recovers {World Assign} _.
Arguments leaves {World Assign} _.
Arguments through_kept {World Assign} _.
Arguments keeps {World Assign} _.
Arguments after {World Assign} _.
Arguments assigns {World Assign} _.

(** ** Vocabulary of the statements *)

Section Vocabulary.

Context {World : Type}.

(** The hooks called along a trace, in order. *)
Definition hooks_called (tr : list event) : list hook_field :=
  flat_map (fun ev => match ev with CallHook h _ => [h] | CallOperationFunc => [] end) tr.

Definition is_operation_call (ev : event) : bool :=
  match ev with CallOperationFunc => true | CallHook _ _ => false end.

Definition is_call_of (h : hook_field) (ev : event) : bool :=
  match ev, h with
  | CallHook FEventRecorderFunc _, FEventRecorderFunc => true
  | CallHook FCompleteFunc _, FCompleteFunc => true
  | _, _ => false
  end.

Definition count (p : event -> bool) (tr : list event) : nat :=
  length (filter p tr).

(** Some call of [h] comes later in the trace than some call of [h']. *)
Fixpoint called_after (h h' : hook_field) (tr : list event) : bool :=
  match tr with
  | [] => false
  | ev :: tr' =>
      (is_call_of h' ev && existsb (is_call_of h) tr') || called_after h h' tr'
  end.

(** What a func field contributes when it is set. *)
Definition when_set {A F : Type} (f : option F) (x : A) : list A :=
  match f with Some _ => [x] | None => [] end.

(** How many times a func field can be called: once when set. *)
Definition times_set {F : Type} (f : option F) : nat :=
  match f with Some _ => 1 | None => 0 end.

(** What the calls of hook [h] found in their cell, in order. *)
Definition seen_by (h : hook_field) (tr : list event) : list error :=
  flat_map (fun ev =>
              match ev with
              | CallHook _ e => if is_call_of h ev then [e] else []
              | CallOperationFunc => []
              end) tr.

(** The panic an error was built from, if any. *)
Definition recovered_from (err : error) : option panic_value :=
  match err with ErrRecovered v => Some v | _ => None end.

End Vocabulary.

(** ** Vocabulary of the callbacks' effects *)

Section CallbackEffects.

Context {World : Type}.

(** What the call of a func field yields; calling a nil OperationFunc
    panics on the spot and does nothing else. *)
Definition operation_at (f : option (operation World)) (w : World)
  : op_result * World * list (field_write World) :=
  match f with
  | Some op => op w
  | None => (OpPanic NilDereference ErrNil ErrNil, w, [])
  end.

(** A hook field that is nil is not deferred: nothing happens. *)
Definition idle (c : hook_call World) : hook_return World :=
  {| finish := Done; recovers := false; leaves := cell c; through_kept := [];
     keeps := false; after := before c; assigns := [] |}.

Definition hook_at (f : option (hook World)) (c : hook_call World) : hook_return World :=
  match f with
  | Some h => h c
  | None => idle c
  end.

(** What eventErr holds once OperationFunc is over: what it returned, or
    the zero value after a panic. *)
Definition settled_eventErr (r : op_result) : error :=
  match r with
  | OpReturn e1 _ => e1
  | OpPanic _ _ _ => ErrNil
  end.

(** What detailedErr holds once OperationFunc is over and RecoverFromPanic
    has run. *)
Definition settled_detailedErr (r : op_result) : error :=
  match r with
  | OpReturn _ e2 => e2
  | OpPanic v _ _ => snd (RecoverFromPanic (Some v) ErrNil)
  end.

(** The call of EventRecorderFunc: it is handed [&eventErr]; no pointer
    has been kept yet and no panic is in flight any more. *)
Definition EventRecorderFunc_call (e : error) (w : World) : hook_call World :=
  {| arg := AddrEventErr; cell := e; reach := [];
     in_flight := None; before := w |}.

(** The call of CompleteFunc after a call [c1] of EventRecorderFunc that
    ended as [r1] (or after [idle], when EventRecorderFunc is nil): it is
    handed [&detailedErr], reaches eventErr if its pointer was kept, and is
    called with the panic and the world that the call before it left. *)
Definition CompleteFunc_call (d : error) (c1 : hook_call World) (r1 : hook_return World)
  : hook_call World :=
  {| arg := AddrDetailedErr; cell := d;
     reach := if keeps r1 then [(arg c1, leaves r1)] else [];
     in_flight := panic_after (in_flight c1) r1; before := after r1 |}.

(** The content of the cell at [q] after the assignments [ws], made in
    order, when it held [e] before. *)
Definition written (q : addr) (ws : list (addr * error)) (e : error) : error :=
  fold_left (fun acc qe => if addr_eqb (fst qe) q then snd qe else acc) ws e.

(** What eventErr holds in the end: what EventRecorderFunc left there,
    unless it kept the pointer and CompleteFunc assigned through it. *)
Definition eventErr_left (r1 r2 : hook_return World) : error :=
  if keeps r1 then written AddrEventErr (through_kept r2) (leaves r1)
  else leaves r1.

(** The hooks of a stack, as [Run] defers them. *)
Definition hooks_deferred (ev co : option (hook World)) : list (@deferred World) :=
  match ev with
  | Some f => [DeferHook FEventRecorderFunc f AddrEventErr]
  | None => []
  end ++
  match co with
  | Some f => [DeferHook FCompleteFunc f AddrDetailedErr]
  | None => []
  end.

(** How the call of EventRecorderFunc ends when eventErr holds [e] and the
    world is [w]; [idle] when the field is nil. *)
Definition EventRecorderFunc_return (o : GeneratedOperations World)
    (e : error) (w : World) : hook_return World :=
  hook_at (EventRecorderFunc o) (EventRecorderFunc_call e w).

(** How the call of CompleteFunc that follows ends, when detailedErr holds
    [d]; [idle] when the field is nil. *)
Definition CompleteFunc_return (o : GeneratedOperations World)
    (e d : error) (w : World) : hook_return World :=
  hook_at (CompleteFunc o)
    (CompleteFunc_call d (EventRecorderFunc_call e w) (EventRecorderFunc_return o e w)).

(** The same envelope under another OperationName. *)
Definition with_name (n : string) (o : GeneratedOperations World)
  : GeneratedOperations World :=
  {| OperationName := n; OperationFunc := OperationFunc o;
     EventRecorderFunc := EventRecorderFunc o; CompleteFunc := CompleteFunc o |}.

End CallbackEffects.

(** ** Sample callbacks, over a world that is a shared ordered log *)

Definition Log : Type := list string.

(** A hook that reads its cell, appends [line] to the log and returns. *)
Definition logging (line : string) : hook Log :=
  fun c =>
    {| finish := Done; recovers := false; leaves := cell c; through_kept := [];
       keeps := false; after := before c ++ [line]; assigns := [] |}.

Definition logEvent : hook Log := logging "event".

Definition logCompletion : hook Log := logging "completion".

(** [func(err *error) { *err = e' }] *)
Definition overwriteWith (e' : error) : hook Log :=
  fun c =>
    {| finish := Done; recovers := false; leaves := e'; through_kept := [];
       keeps := false; after := before c; assigns := [] |}.

(** [func(err *error) { panic(v) }] *)
Definition panickingHook (v : string) : hook Log :=
  fun c =>
    {| finish := Panics (PanicOf v); recovers := false; leaves := cell c;
       through_kept := []; keeps := false; after := before c; assigns := [] |}.

(** [func(err *error) { recover() }] *)
Definition recoveringHook : hook Log :=
  fun c =>
    {| finish := Done; recovers := true; leaves := cell c; through_kept := [];
       keeps := false; after := before c; assigns := [] |}.

(** [func(err *error) { saved = err }] *)
Definition keepingHook : hook Log :=
  fun c =>
    {| finish := Done; recovers := false; leaves := cell c; through_kept := [];
       keeps := true; after := before c; assigns := [] |}.

(** [func(err *error) { *saved = e' }], for a pointer [saved] to eventErr. *)
Definition writingThroughKept (e' : error) : hook Log :=
  fun c =>
    {| finish := Done; recovers := false; leaves := cell c;
       through_kept := [(AddrEventErr, e')];
       keeps := false; after := before c; assigns := [] |}.

(** A recorder that logs the message of a timeout error, calling Error on
    the pointer its cell holds: it panics when that pointer is nil. *)
Definition logTimeoutMessage : hook Log :=
  fun c =>
    match cell c with
    | ErrTimedOut p =>
        match Error p with
        | Returned m =>
            {| finish := Done; recovers := false; leaves := cell c;
               through_kept := []; keeps := false; after := before c ++ [m];
               assigns := [] |}
        | Panicked v =>
            {| finish := Panics v; recovers := false; leaves := cell c;
               through_kept := []; keeps := false; after := before c;
               assigns := [] |}
        end
    | _ => idle c
    end.

(** [func() (error, error) { return e1, e2 }] *)
Definition opReturning (e1 e2 : error) : operation Log :=
  fun log => (OpReturn e1 e2, log ++ ["operation"], []).

(** [func() (eventErr, detailedErr error) { eventErr = e1; panic(v) }] *)
Definition opSettingThenPanicking (e1 : error) (v : string) : operation Log :=
  fun log => (OpPanic (PanicOf v) e1 ErrNil, log ++ ["operation"], []).

(** [func() (error, error) { o.OperationName = n; return nil, nil }], a
    closure over the envelope [o] it is a field of. *)
Definition opRenaming (n : string) : operation Log :=
  fun log => (OpReturn ErrNil ErrNil, log ++ ["operation"], [SetOperationName n]).

Definition envelope (op : operation Log) (ev co : option (hook Log))
  : GeneratedOperations Log :=
  {| OperationName := "op"; OperationFunc := Some op;
     EventRecorderFunc := ev; CompleteFunc := co |}.

(** An envelope whose OperationFunc was left nil. *)
Definition envelopeWithoutOperation (ev co : option (hook Log))
  : GeneratedOperations Log :=
  {| OperationName := "op"; OperationFunc := None;
     EventRecorderFunc := ev; CompleteFunc := co |}.

(** * Properties *)

(** ** The classifier *)

Lemma assert_ok_iff_dynamic_type (err : error) :
  snd (assert_PtrOperationTimedOutError err) = true <->
  dynamic_type err = Some PtrOperationTimedOutError.
Proof.
  destruct err; simpl; split; intro H; try reflexivity; discriminate H.
Qed.

(** ** Unwinding *)

Arguments write_through : simpl never.

Section RunFacts.

Context {World : Type}.
Implicit Types (o : GeneratedOperations World) (a : activation World) (w : World).
Implicit Types (ws : list (addr * error)) (r : hook_return World).

(** Nothing is assigned through a pointer while none has been kept. *)
Lemma write_through_none_kept ws : forall a, kept a = [] -> write_through ws a = a.
Proof.
  induction ws as [|[q e] ws IH]; intros a Hk; [reflexivity|].
  unfold write_through in *. simpl. rewrite Hk. simpl. now apply IH.
Qed.

(** With the pointer to eventErr kept, and no other, the assignments
    through kept pointers change eventErr alone. *)
Lemma write_through_eventErr_kept ws : forall a,
  kept a = [AddrEventErr] ->
  write_through ws a = store AddrEventErr (written AddrEventErr ws (eventErr a)) a.
Proof.
  induction ws as [|[q e] ws IH]; intros a Hk;
    destruct a as [o ee de pa k wo tr]; simpl in Hk; subst k.
  - reflexivity.
  - unfold write_through, written in *. simpl.
    destruct q; simpl; rewrite IH by reflexivity; reflexivity.
Qed.

(** Unwinding the hooks from an activation in which no pointer has been
    kept and no panic is in flight. *)
Lemma unwind_hooks ev co a :
  kept a = [] ->
  panicking a = None ->
  let c1 := EventRecorderFunc_call (eventErr a) (world a) in
  let r1 := hook_at ev c1 in
  let c2 := CompleteFunc_call (detailedErr a) c1 r1 in
  let r2 := hook_at co c2 in
  let a' := unwind (hooks_deferred ev co) a in
  eventErr a' = eventErr_left r1 r2 /\
  detailedErr a' = leaves r2 /\
  panicking a' = panic_after (panic_after None r1) r2 /\
  world a' = after r2 /\
  self a' = assign_all (assigns r2) (assign_all (assigns r1) (self a)) /\
  trace a' =
    trace a ++
    when_set ev (CallHook FEventRecorderFunc (eventErr a)) ++
    when_set co (CallHook FCompleteFunc (detailedErr a)).
Proof.
  destruct a as [o ee de pa k wo tr]; simpl; intros -> ->.
  unfold hooks_deferred, EventRecorderFunc_call, CompleteFunc_call, eventErr_left.
  destruct ev as [ev|], co as [co|]; simpl.
  - rewrite write_through_none_kept by reflexivity. simpl.
    destruct (ev _) as [f1 rc1 l1 tk1 k1 af1 as1]; simpl.
    destruct k1; simpl.
    + rewrite write_through_eventErr_kept by reflexivity. simpl.
      destruct (co _) as [f2 rc2 l2 tk2 k2 af2 as2]; simpl.
      destruct k2; simpl; rewrite <- app_assoc; repeat split.
    + rewrite write_through_none_kept by reflexivity. simpl.
      destruct (co _) as [f2 rc2 l2 tk2 k2 af2 as2]; simpl.
      destruct k2; simpl; rewrite <- app_assoc; repeat split.
  - rewrite write_through_none_kept by reflexivity. simpl.
    destruct (ev _) as [f1 rc1 l1 tk1 k1 af1 as1]; simpl.
    destruct k1; simpl; repeat split.
  - rewrite write_through_none_kept by reflexivity. simpl.
    destruct (co _) as [f2 rc2 l2 tk2 k2 af2 as2]; simpl.
    destruct k2; simpl; repeat split.
  - rewrite app_nil_r. repeat split.
Qed.

(** [Run] spelled out: the operation is called on the world [Run] was
    entered with, EventRecorderFunc on what it settled in eventErr, then
    CompleteFunc on what it settled in detailedErr, each on the world, the
    panic and the kept pointers the call before it left. *)
Lemma Run_spelled_out o w :
  let ret := operation_at (OperationFunc o) w in
  let c1 := EventRecorderFunc_call (settled_eventErr (fst (fst ret))) (snd (fst ret)) in
  let r1 := hook_at (EventRecorderFunc o) c1 in
  let c2 := CompleteFunc_call (settled_detailedErr (fst (fst ret))) c1 r1 in
  let r2 := hook_at (CompleteFunc o) c2 in
  eventErr (Run o w) = eventErr_left r1 r2 /\
  detailedErr (Run o w) = leaves r2 /\
  panicking (Run o w) = panic_after (panic_after None r1) r2 /\
  world (Run o w) = after r2 /\
  self (Run o w) =
    assign_all (assigns r2) (assign_all (assigns r1) (assign_all (snd ret) o)) /\
  trace (Run o w) =
    when_set (OperationFunc o) CallOperationFunc ++
    when_set (EventRecorderFunc o)
      (CallHook FEventRecorderFunc (settled_eventErr (fst (fst ret)))) ++
    when_set (CompleteFunc o)
      (CallHook FCompleteFunc (settled_detailedErr (fst (fst ret)))).
Proof.
  assert (Hrun : Run o w =
                 unwind (hooks_deferred (EventRecorderFunc o) (CompleteFunc o))
                        (run_deferred (DeferRecoverFromPanic AddrDetailedErr)
                                      (return_OperationFunc (enter o w)))).
  { unfold Run, hooks_deferred. simpl.
    destruct (EventRecorderFunc o), (CompleteFunc o); reflexivity. }
  rewrite Hrun. clear Hrun.
  destruct o as [name f ev co]. unfold return_OperationFunc. simpl.
  destruct f as [op|]; simpl.
  - destruct (op w) as [[res w1] fws]. destruct res as [e1 e2|v e1 e2]; simpl;
      match goal with
      | |- context [unwind _ ?a] => exact (unwind_hooks ev co a eq_refl eq_refl)
      end.
  - match goal with
    | |- context [unwind _ ?a] => exact (unwind_hooks ev co a eq_refl eq_refl)
    end.
Qed.

(** [Run] in terms of what its operation yields. *)
Lemma Run_after_operation o w op res w1 fws :
  OperationFunc o = Some op ->
  op w = (res, w1, fws) ->
  let e := settled_eventErr res in
  let d := settled_detailedErr res in
  let r1 := EventRecorderFunc_return o e w1 in
  let r2 := CompleteFunc_return o e d w1 in
  eventErr (Run o w) = eventErr_left r1 r2 /\
  detailedErr (Run o w) = leaves r2 /\
  panicking (Run o w) = panic_after (panic_after None r1) r2 /\
  world (Run o w) = after r2 /\
  self (Run o w) = assign_all (assigns r2) (assign_all (assigns r1) (assign_all fws o)) /\
  trace (Run o w) =
    CallOperationFunc ::
      when_set (EventRecorderFunc o) (CallHook FEventRecorderFunc e) ++
      when_set (CompleteFunc o) (CallHook FCompleteFunc d).
Proof.
  intros Hf Hop. pose proof (Run_spelled_out o w) as H.
  rewrite Hf in H. simpl in H. rewrite Hop in H. exact H.
Qed.

(** C3: whatever the operation and the hooks do (return or panic), the
    hooks called by [Run] are, in order, EventRecorderFunc if it is set and
    then CompleteFunc if it is set: EventRecorderFunc is never called after
    CompleteFunc. *)
Theorem Run_hook_order o w :
  hooks_called (trace (Run o w)) =
    when_set (EventRecorderFunc o) FEventRecorderFunc ++
    when_set (CompleteFunc o) FCompleteFunc /\
  called_after FEventRecorderFunc FCompleteFunc (trace (Run o w)) = false.
Proof.
  destruct (Run_spelled_out o w) as (_ & _ & _ & _ & _ & ->).
  destruct (OperationFunc o), (EventRecorderFunc o), (CompleteFunc o);
    split; reflexivity.
Qed.

(** C4: when OperationFunc is not nil, a call of [Run] executes it exactly
    once, and executes EventRecorderFunc and CompleteFunc exactly once each
    when set and never when nil, whether the operation returns or panics:
    so the calls it makes count, and so its effects show, the world [Run]
    leaves being the one CompleteFunc leaves when called on the world
    EventRecorderFunc leaves when called on the world OperationFunc leaves
    when called on the world [Run] was entered with. *)
Theorem Run_calls_each_once o w op :
  OperationFunc o = Some op ->
  count is_operation_call (trace (Run o w)) = 1 /\
  count (is_call_of FEventRecorderFunc) (trace (Run o w)) =
    times_set (EventRecorderFunc o) /\
  count (is_call_of FCompleteFunc) (trace (Run o w)) =
    times_set (CompleteFunc o) /\
  world (Run o w) =
    after (CompleteFunc_return o
             (settled_eventErr (fst (fst (op w))))
             (settled_detailedErr (fst (fst (op w))))
             (snd (fst (op w)))).
Proof.
  intro Hf. destruct (op w) as [[res w1] fws] eqn:Hop.
  destruct (Run_after_operation o w op res w1 fws Hf Hop) as (_ & _ & _ & Hw & _ & Ht).
  rewrite Ht, Hw. simpl.
  destruct (EventRecorderFunc o), (CompleteFunc o); repeat split.
Qed.

(** C5, amended: each hook finds in its cell what the slot holds once
    operationFunc is over and a panic, if any, has been converted.  After a
    normal return of (e1, e2), EventRecorderFunc finds e1 and CompleteFunc
    finds e2.  After a panic with V, CompleteFunc finds the error built from
    V and EventRecorderFunc finds nil, the zero value, whatever
    operationFunc had assigned to its own results before panicking. *)
Theorem hooks_find_settled_results o w op :
  OperationFunc o = Some op ->
  match fst (fst (op w)) with
  | OpReturn e1 e2 =>
      seen_by FEventRecorderFunc (trace (Run o w)) =
        when_set (EventRecorderFunc o) e1 /\
      seen_by FCompleteFunc (trace (Run o w)) =
        when_set (CompleteFunc o) e2
  | OpPanic v _ _ =>
      seen_by FEventRecorderFunc (trace (Run o w)) =
        when_set (EventRecorderFunc o) ErrNil /\
      seen_by FCompleteFunc (trace (Run o w)) =
        when_set (CompleteFunc o) (ErrRecovered v)
  end.
Proof.
  intro Hf. destruct (op w) as [[res w1] fws] eqn:Hop.
  destruct (Run_after_operation o w op res w1 fws Hf Hop) as (_ & _ & _ & _ & _ & Ht).
  rewrite Ht. simpl.
  destruct res as [e1 e2|v e1 e2]; simpl;
    destruct (EventRecorderFunc o), (CompleteFunc o); split; reflexivity.
Qed.

(** C7: with both hooks nil and an operation that returns (nil, nil),
    [Run] returns (nil, nil): it does not panic, and it calls no hook. *)
Theorem Run_bare_noop o w op w' fws :
  OperationFunc o = Some op ->
  EventRecorderFunc o = None ->
  CompleteFunc o = None ->
  op w = (OpReturn ErrNil ErrNil, w', fws) ->
  result (Run o w) = Returns ErrNil ErrNil /\
  hooks_called (trace (Run o w)) = [] /\
  trace (Run o w) = [CallOperationFunc].
Proof.
  intros Hf Hev Hco Hop.
  destruct (Run_after_operation o w op _ w' fws Hf Hop) as (He & Hd & Hp & _ & _ & Ht).
  unfold result. rewrite Hp, He, Hd, Ht.
  unfold CompleteFunc_return, EventRecorderFunc_return. rewrite Hev, Hco.
  repeat split.
Qed.

(** A call that returns leaves no panic of its own. *)
Lemma panic_after_Done r : finish r = Done -> panic_after None r = None.
Proof. unfold panic_after. intros ->. now destruct (recovers r). Qed.

(** C1, amended: when operationFunc returns (e1, e2) without panicking,
    OperationFunc is executed, then EventRecorderFunc, if set, exactly once
    and finding e1, then CompleteFunc, if set, exactly once and finding e2,
    as the calls made and the world left show; and when, at these calls, the
    hooks that are set return normally, leave in their cell what they found
    and assign through no pointer kept earlier, [Run] returns exactly
    (e1, e2). *)
Theorem Run_passes_errors_through o w op e1 e2 w1 fws :
  OperationFunc o = Some op ->
  op w = (OpReturn e1 e2, w1, fws) ->
  let r1 := EventRecorderFunc_return o e1 w1 in
  let r2 := CompleteFunc_return o e1 e2 w1 in
  trace (Run o w) =
    CallOperationFunc ::
      when_set (EventRecorderFunc o) (CallHook FEventRecorderFunc e1) ++
      when_set (CompleteFunc o) (CallHook FCompleteFunc e2) /\
  world (Run o w) = after r2 /\
  (finish r1 = Done -> leaves r1 = e1 ->
   finish r2 = Done -> leaves r2 = e2 -> through_kept r2 = [] ->
   result (Run o w) = Returns e1 e2).
Proof.
  intros Hf Hop r1 r2.
  destruct (Run_after_operation o w op _ w1 fws Hf Hop) as (He & Hd & Hp & Hw & _ & Ht).
  simpl in *. fold r1 r2 in He, Hd, Hp, Hw.
  split; [exact Ht|]. split; [exact Hw|].
  intros F1 L1 F2 L2 K2.
  unfold result. rewrite Hp, He, Hd.
  rewrite (panic_after_Done r1 F1), (panic_after_Done r2 F2).
  unfold eventErr_left. rewrite K2, L1, L2. simpl.
  now destruct (keeps r1).
Qed.

(** C2, amended: when operationFunc panics with V, the panic is turned
    into a detailedErr that is not nil and is built from V, and CompleteFunc,
    if set, is executed on it: it finds that detailedErr in its cell and the
    world [Run] leaves is the one it leaves.  When, at their calls, the hooks
    that are set return normally, [Run] does not panic; when CompleteFunc
    moreover leaves in its cell what it found, [Run] returns that same
    detailedErr. *)
Theorem Run_contains_operation_panic o w op v e1 e2 w1 fws :
  OperationFunc o = Some op ->
  op w = (OpPanic v e1 e2, w1, fws) ->
  exists d,
    d <> ErrNil /\ recovered_from d = Some v /\
    seen_by FCompleteFunc (trace (Run o w)) = when_set (CompleteFunc o) d /\
    world (Run o w) = after (CompleteFunc_return o ErrNil d w1) /\
    (finish (EventRecorderFunc_return o ErrNil w1) = Done ->
     finish (CompleteFunc_return o ErrNil d w1) = Done ->
     exists e d',
       result (Run o w) = Returns e d' /\
       (leaves (CompleteFunc_return o ErrNil d w1) = d -> d' = d)).
Proof.
  intros Hf Hop.
  destruct (Run_after_operation o w op _ w1 fws Hf Hop) as (He & Hd & Hp & Hw & _ & Ht).
  simpl in *. exists (ErrRecovered v).
  split; [discriminate|]. split; [reflexivity|]. split.
  { rewrite Ht. destruct (EventRecorderFunc o), (CompleteFunc o); reflexivity. }
  split; [exact Hw|].
  intros F1 F2. eexists _, _. split.
  - unfold result. rewrite Hp, (panic_after_Done _ F1), (panic_after_Done _ F2).
    reflexivity.
  - intro L2. rewrite Hd. exact L2.
Qed.

(** C8, amended: [Run] itself assigns no field of its receiver: after a
    call the envelope is what the assignments made by OperationFunc, then
    by EventRecorderFunc, then by CompleteFunc have left, and when these
    callbacks assign to no field, OperationName, OperationFunc,
    EventRecorderFunc and CompleteFunc are after the call what they were
    before it. *)
Theorem Run_assigns_no_field o w :
  let ret := operation_at (OperationFunc o) w in
  let e := settled_eventErr (fst (fst ret)) in
  let d := settled_detailedErr (fst (fst ret)) in
  let r1 := EventRecorderFunc_return o e (snd (fst ret)) in
  let r2 := CompleteFunc_return o e d (snd (fst ret)) in
  self (Run o w) =
    assign_all (assigns r2) (assign_all (assigns r1) (assign_all (snd ret) o)) /\
  (snd ret = [] -> assigns r1 = [] -> assigns r2 = [] ->
   OperationName (self (Run o w)) = OperationName o /\
   OperationFunc (self (Run o w)) = OperationFunc o /\
   EventRecorderFunc (self (Run o w)) = EventRecorderFunc o /\
   CompleteFunc (self (Run o w)) = CompleteFunc o).
Proof.
  intros ret e d r1 r2.
  destruct (Run_spelled_out o w) as (_ & _ & _ & _ & Hs & _).
  fold ret e d in Hs.
  split; [exact Hs|].
  intros H0 H1 H2. rewrite Hs.
  unfold r1, r2, CompleteFunc_return, EventRecorderFunc_return in H1, H2.
  rewrite H0, H2, H1. repeat split.
Qed.

(** X1: when the operation returns (e1, e2) and the hooks that are set
    return normally at their call, [Run] returns what the hooks left in the
    two results: detailedErr is what CompleteFunc left in its cell, and
    eventErr is what EventRecorderFunc left in its cell, unless it kept the
    pointer and CompleteFunc assigned through it; a nil hook leaves the
    operation's own value. *)
Theorem Run_returns_what_hooks_leave o w op e1 e2 w1 fws :
  OperationFunc o = Some op ->
  op w = (OpReturn e1 e2, w1, fws) ->
  finish (EventRecorderFunc_return o e1 w1) = Done ->
  finish (CompleteFunc_return o e1 e2 w1) = Done ->
  result (Run o w) =
    Returns (eventErr_left (EventRecorderFunc_return o e1 w1)
                           (CompleteFunc_return o e1 e2 w1))
            (leaves (CompleteFunc_return o e1 e2 w1)).
Proof.
  intros Hf Hop F1 F2.
  destruct (Run_after_operation o w op _ w1 fws Hf Hop) as (He & Hd & Hp & _).
  simpl in *. unfold result.
  rewrite Hp, He, Hd, (panic_after_Done _ F1), (panic_after_Done _ F2).
  reflexivity.
Qed.

(** X2: when the operation returns, the effects on the world are those of
    the operation, then of EventRecorderFunc, then of CompleteFunc, each
    starting from the world the one before left, whether or not a hook
    panics. *)
Theorem Run_threads_world o w op e1 e2 w1 fws :
  OperationFunc o = Some op ->
  op w = (OpReturn e1 e2, w1, fws) ->
  let c1 := EventRecorderFunc_call e1 w1 in
  let r1 := hook_at (EventRecorderFunc o) c1 in
  let c2 := CompleteFunc_call e2 c1 r1 in
  before c1 = w1 /\
  before c2 = after r1 /\
  world (Run o w) = after (hook_at (CompleteFunc o) c2).
Proof.
  intros Hf Hop.
  destruct (Run_after_operation o w op _ w1 fws Hf Hop) as (_ & _ & _ & Hw & _).
  simpl. repeat split. exact Hw.
Qed.

(** X3: a panic of CompleteFunc is not contained: when the operation
    returns and CompleteFunc panics with v at its call, [Run] panics with v,
    whatever EventRecorderFunc did before, a panic of its own included. *)
Theorem Run_propagates_CompleteFunc_panic o w op e1 e2 w1 fws v :
  OperationFunc o = Some op ->
  op w = (OpReturn e1 e2, w1, fws) ->
  finish (CompleteFunc_return o e1 e2 w1) = Panics v ->
  result (Run o w) = Propagates v.
Proof.
  intros Hf Hop F2.
  destruct (Run_after_operation o w op _ w1 fws Hf Hop) as (_ & _ & Hp & _).
  simpl in *. unfold result. rewrite Hp. unfold panic_after at 1. rewrite F2.
  reflexivity.
Qed.

(** X4: a panic of EventRecorderFunc does not keep CompleteFunc from
    running, and it is CompleteFunc that decides what becomes of it.  When
    the operation returns (e1, e2) and EventRecorderFunc panics with v,
    CompleteFunc, if set, is still called once and finds e2; if it is nil,
    or returns without calling recover, [Run] panics with v; if it calls
    recover and returns, [Run] returns what the hooks left in the two
    results. *)
Theorem Run_after_EventRecorderFunc_panic o w op e1 e2 w1 fws v :
  OperationFunc o = Some op ->
  op w = (OpReturn e1 e2, w1, fws) ->
  finish (EventRecorderFunc_return o e1 w1) = Panics v ->
  finish (CompleteFunc_return o e1 e2 w1) = Done ->
  seen_by FCompleteFunc (trace (Run o w)) = when_set (CompleteFunc o) e2 /\
  result (Run o w) =
    if recovers (CompleteFunc_return o e1 e2 w1)
    then Returns (eventErr_left (EventRecorderFunc_return o e1 w1)
                                (CompleteFunc_return o e1 e2 w1))
                 (leaves (CompleteFunc_return o e1 e2 w1))
    else Propagates v.
Proof.
  intros Hf Hop F1 F2.
  destruct (Run_after_operation o w op _ w1 fws Hf Hop) as (He & Hd & Hp & _ & _ & Ht).
  simpl in *. split.
  - rewrite Ht. destruct (EventRecorderFunc o), (CompleteFunc o); reflexivity.
  - unfold result. rewrite Hp, He, Hd. unfold panic_after. rewrite F1, F2.
    destruct (recovers (CompleteFunc_return o e1 e2 w1)); reflexivity.
Qed.

(** X5: a nil OperationFunc is not guarded against: nothing is called in
    its place, yet the hooks that are set are still called, once each and
    EventRecorderFunc first; EventRecorderFunc finds nil in eventErr and runs
    on the world [Run] was entered with, and CompleteFunc runs on the world
    EventRecorderFunc left. *)
Theorem Run_nil_OperationFunc_unwinds o w :
  OperationFunc o = None ->
  count is_operation_call (trace (Run o w)) = 0 /\
  hooks_called (trace (Run o w)) =
    when_set (EventRecorderFunc o) FEventRecorderFunc ++
    when_set (CompleteFunc o) FCompleteFunc /\
  seen_by FEventRecorderFunc (trace (Run o w)) =
    when_set (EventRecorderFunc o) ErrNil /\
  exists d,
    seen_by FCompleteFunc (trace (Run o w)) = when_set (CompleteFunc o) d /\
    world (Run o w) = after (CompleteFunc_return o ErrNil d w).
Proof.
  intro Hf. destruct (Run_spelled_out o w) as (_ & _ & _ & Hw & _ & Ht).
  rewrite Hf in Hw, Ht. simpl in Hw, Ht. rewrite Ht.
  split; [|split; [|split]];
    try (destruct (EventRecorderFunc o), (CompleteFunc o); reflexivity).
  exists (ErrRecovered NilDereference). split; [|exact Hw].
  destruct (EventRecorderFunc o), (CompleteFunc o); reflexivity.
Qed.

(** X6: [Run] never reads OperationName: under any other name the same
    calls are made, the same world is left and the caller gets the same
    result. *)
Theorem Run_ignores_OperationName o w n :
  trace (Run (with_name n o) w) = trace (Run o w) /\
  world (Run (with_name n o) w) = world (Run o w) /\
  result (Run (with_name n o) w) = result (Run o w).
Proof.
  destruct (Run_spelled_out o w) as (He & Hd & Hp & Hw & _ & Ht).
  destruct (Run_spelled_out (with_name n o) w) as (He' & Hd' & Hp' & Hw' & _ & Ht').
  unfold result. rewrite He, Hd, Hp, Hw, Ht, He', Hd', Hp', Hw', Ht'.
  destruct o; repeat split.
Qed.

End RunFacts.

(** ** The classifier and the constructor *)

(** C6: IsOperationTimeOutError is true exactly when the dynamic type of the
    error is the pointer to OperationTimedOutError: true on what
    NewOperationTimedOutError builds, for every message; false on nil; false
    on every other kind, and on an error that wraps a timeout error, which
    is not unwrapped. *)
Theorem IsOperationTimeOutError_exact_kind :
  (forall err,
      IsOperationTimeOutError err = true <->
      dynamic_type err = Some PtrOperationTimedOutError) /\
  (forall m, IsOperationTimeOutError (ErrTimedOut (NewOperationTimedOutError m)) = true) /\
  IsOperationTimeOutError ErrNil = false /\
  (forall err,
      dynamic_type err <> Some PtrOperationTimedOutError <->
      IsOperationTimeOutError err = false) /\
  (forall s m,
      let timeout := ErrTimedOut (NewOperationTimedOutError m) in
      IsOperationTimeOutError (ErrWrap s timeout) = false /\
      Unwrap (ErrWrap s timeout) = timeout /\
      IsOperationTimeOutError timeout = true).
Proof.
  split; [|split; [|split; [|split]]].
  - intro err. rewrite <- assert_ok_iff_dynamic_type.
    unfold IsOperationTimeOutError.
    destruct (assert_PtrOperationTimedOutError err) as [p [|]]; simpl;
      split; intro H; try reflexivity; discriminate H.
  - reflexivity.
  - reflexivity.
  - intro err. destruct err; simpl; split; intro H;
      try reflexivity; try discriminate; try (exfalso; now apply H).
  - intros s m. repeat split.
Qed.

(** C9: a nil pointer to OperationTimedOutError held in an error is
    classified as a timeout error, although calling Error on that pointer
    dereferences nil and panics. *)
Theorem IsOperationTimeOutError_typed_nil :
  IsOperationTimeOutError (ErrTimedOut None) = true /\
  dynamic_type (ErrTimedOut None) = Some PtrOperationTimedOutError /\
  Error None = Panicked NilDereference.
Proof. repeat split. Qed.

(** C10: for every message m, Error called on NewOperationTimedOutError(m)
    returns exactly m. *)
Theorem Error_NewOperationTimedOutError (m : string) :
  Error (NewOperationTimedOutError m) = Returned m.
Proof. reflexivity. Qed.


(** X7: the three operation statuses are pairwise distinct strings, so a
    comparison of statuses tells them apart. *)
Theorem OperationStatus_pairwise_distinct :
  String.eqb OperationFinished OperationInProgress = false /\
  String.eqb OperationFinished OperationStateNoChange = false /\
  String.eqb OperationInProgress OperationStateNoChange = false.
Proof. repeat split. Qed.

(** ** Runs of the sample envelopes *)

(** [called_after] does tell the reverse order apart. *)
Example called_after_reverse_order :
  called_after FEventRecorderFunc FCompleteFunc
    [CallOperationFunc; CallHook FCompleteFunc ErrNil; CallHook FEventRecorderFunc ErrNil] = true.
Proof. reflexivity. Qed.

(** The test with a shared ordered log. *)
Example Run_shared_log :
  world (Run (envelope (opReturning ErrNil ErrNil) (Some logEvent) (Some logCompletion)) []) =
  ["operation"; "event"; "completion"].
Proof. reflexivity. Qed.

(** Calling a nil OperationFunc panics inside [Run], and is recovered. *)
Example Run_nil_OperationFunc :
  result (Run (envelopeWithoutOperation None (Some logCompletion)) []) =
  Returns ErrNil (ErrRecovered NilDereference).
Proof. reflexivity. Qed.

(** A pointer to eventErr kept by EventRecorderFunc lets CompleteFunc
    decide the eventErr returned. *)
Example Run_kept_pointer :
  result (Run (envelope (opReturning (ErrString "e1") (ErrString "e2"))
                        (Some keepingHook)
                        (Some (writingThroughKept (ErrString "late")))) []) =
  Returns (ErrString "late") (ErrString "e2").
Proof. reflexivity. Qed.

(** A CompleteFunc that calls recover ends the panic of EventRecorderFunc. *)
Example Run_recovering_CompleteFunc :
  result (Run (envelope (opReturning (ErrString "e1") (ErrString "e2"))
                        (Some (panickingHook "event"))
                        (Some recoveringHook)) []) =
  Returns (ErrString "e1") (ErrString "e2").
Proof. reflexivity. Qed.

(** C1 as stated fails: an EventRecorderFunc that assigns through its
    pointer changes what [Run] returns. *)
Lemma Run_returns_what_hook_wrote :
  opReturning (ErrString "e1") (ErrString "e2") [] =
    (OpReturn (ErrString "e1") (ErrString "e2"), ["operation"], []) /\
  result (Run (envelope (opReturning (ErrString "e1") (ErrString "e2"))
                        (Some (overwriteWith ErrNil)) None) []) =
    Returns ErrNil (ErrString "e2") /\
  result (Run (envelope (opReturning (ErrString "e1") (ErrString "e2"))
                        (Some (overwriteWith ErrNil)) None) []) <>
    Returns (ErrString "e1") (ErrString "e2").
Proof. repeat split. discriminate. Qed.

(** The recorder of this run would panic on a nil pointer to a timeout
    error, but finds a pointer that is not nil and returns. *)
Lemma Run_passes_errors_through_witness :
  trace (Run (envelope (opReturning (ErrTimedOut (NewOperationTimedOutError "slow"))
                                    (ErrString "e2"))
                       (Some logTimeoutMessage) (Some logCompletion)) []) =
    [CallOperationFunc;
     CallHook FEventRecorderFunc (ErrTimedOut (NewOperationTimedOutError "slow"));
     CallHook FCompleteFunc (ErrString "e2")] /\
  world (Run (envelope (opReturning (ErrTimedOut (NewOperationTimedOutError "slow"))
                                    (ErrString "e2"))
                       (Some logTimeoutMessage) (Some logCompletion)) []) =
    ["operation"; "slow"; "completion"] /\
  result (Run (envelope (opReturning (ErrTimedOut (NewOperationTimedOutError "slow"))
                                     (ErrString "e2"))
                        (Some logTimeoutMessage) (Some logCompletion)) []) =
    Returns (ErrTimedOut (NewOperationTimedOutError "slow")) (ErrString "e2").
Proof.
  destruct (Run_passes_errors_through
              (envelope (opReturning (ErrTimedOut (NewOperationTimedOutError "slow"))
                                     (ErrString "e2"))
                        (Some logTimeoutMessage) (Some logCompletion))
              [] _ _ _ _ _ eq_refl eq_refl) as (Htrace & Hworld & Hresult).
  split; [exact Htrace|]. split; [exact Hworld|].
  apply Hresult; reflexivity.
Defined.

(** C2 as stated fails: after a panic of operationFunc, a CompleteFunc that
    assigns nil through its pointer makes [Run] return a nil detailedErr,
    and a hook that panics makes [Run] panic. *)
Lemma Run_after_panic_depends_on_hooks :
  fst (fst (opSettingThenPanicking ErrNil "boom" [])) =
    OpPanic (PanicOf "boom") ErrNil ErrNil /\
  result (Run (envelope (opSettingThenPanicking ErrNil "boom")
                        None (Some (overwriteWith ErrNil))) []) =
    Returns ErrNil ErrNil /\
  result (Run (envelope (opSettingThenPanicking ErrNil "boom")
                        (Some (panickingHook "hook")) (Some logCompletion)) []) =
    Propagates (PanicOf "hook").
Proof. repeat split. Qed.

Lemma Run_contains_operation_panic_witness :
  exists d,
    d <> ErrNil /\ recovered_from d = Some (PanicOf "boom") /\
    seen_by FCompleteFunc
      (trace (Run (envelope (opSettingThenPanicking ErrNil "boom")
                            (Some logEvent) (Some logCompletion)) [])) = [d] /\
    world (Run (envelope (opSettingThenPanicking ErrNil "boom")
                         (Some logEvent) (Some logCompletion)) []) =
      ["operation"; "event"; "completion"] /\
    exists e,
      result (Run (envelope (opSettingThenPanicking ErrNil "boom")
                            (Some logEvent) (Some logCompletion)) []) = Returns e d.
Proof.
  destruct (Run_contains_operation_panic
              (envelope (opSettingThenPanicking ErrNil "boom")
                        (Some logEvent) (Some logCompletion))
              [] _ _ _ _ _ _ eq_refl eq_refl)
    as (d & Hnil & Hfrom & Hseen & Hworld & Hresult).
  exists d. repeat split; try assumption.
  destruct (Hresult eq_refl eq_refl) as (e & d' & Hr & Hd).
  exists e. rewrite <- (Hd eq_refl). exact Hr.
Defined.

Lemma Run_calls_each_once_witness :
  count is_operation_call
    (trace (Run (envelope (opSettingThenPanicking ErrNil "boom") (Some logEvent) None) [])) = 1 /\
  count (is_call_of FEventRecorderFunc)
    (trace (Run (envelope (opSettingThenPanicking ErrNil "boom") (Some logEvent) None) [])) = 1 /\
  count (is_call_of FCompleteFunc)
    (trace (Run (envelope (opSettingThenPanicking ErrNil "boom") (Some logEvent) None) [])) = 0 /\
  world (Run (envelope (opSettingThenPanicking ErrNil "boom") (Some logEvent) None) []) =
    ["operation"; "event"].
Proof.
  exact (Run_calls_each_once
           (envelope (opSettingThenPanicking ErrNil "boom") (Some logEvent) None)
           [] _ eq_refl).
Defined.

(** C5 as stated fails: what operationFunc assigned to its event error
    before panicking never reaches EventRecorderFunc, which finds nil. *)
Lemma EventRecorderFunc_finds_nil_after_panic :
  fst (fst (opSettingThenPanicking (ErrString "a") "boom" [])) =
    OpPanic (PanicOf "boom") (ErrString "a") ErrNil /\
  seen_by FEventRecorderFunc
    (trace (Run (envelope (opSettingThenPanicking (ErrString "a") "boom")
                          (Some logEvent) (Some logCompletion)) [])) = [ErrNil] /\
  seen_by FEventRecorderFunc
    (trace (Run (envelope (opSettingThenPanicking (ErrString "a") "boom")
                          (Some logEvent) (Some logCompletion)) [])) <> [ErrString "a"].
Proof. repeat split. discriminate. Qed.

Lemma hooks_find_settled_results_witness :
  seen_by FEventRecorderFunc
    (trace (Run (envelope (opSettingThenPanicking (ErrString "a") "boom")
                          (Some logEvent) (Some logCompletion)) [])) = [ErrNil] /\
  seen_by FCompleteFunc
    (trace (Run (envelope (opSettingThenPanicking (ErrString "a") "boom")
                          (Some logEvent) (Some logCompletion)) [])) =
    [ErrRecovered (PanicOf "boom")].
Proof.
  exact (hooks_find_settled_results
           (envelope (opSettingThenPanicking (ErrString "a") "boom")
                     (Some logEvent) (Some logCompletion))
           [] _ eq_refl).
Defined.

Lemma Run_bare_noop_witness :
  result (Run (envelope (opReturning ErrNil ErrNil) None None) []) = Returns ErrNil ErrNil /\
  hooks_called (trace (Run (envelope (opReturning ErrNil ErrNil) None None) [])) = [] /\
  trace (Run (envelope (opReturning ErrNil ErrNil) None None) []) = [CallOperationFunc].
Proof.
  exact (Run_bare_noop (envelope (opReturning ErrNil ErrNil) None None)
                       [] _ _ _ eq_refl eq_refl eq_refl eq_refl).
Defined.

(** C8 as stated fails: an OperationFunc that is a closure over its own
    envelope and assigns to OperationName leaves the field changed by the
    time [Run] returns. *)
Lemma Run_receiver_renamed_by_OperationFunc :
  OperationName (envelope (opRenaming "renamed") None None) = "op" /\
  OperationName (self (Run (envelope (opRenaming "renamed") None None) [])) = "renamed" /\
  OperationName (self (Run (envelope (opRenaming "renamed") None None) [])) <>
    OperationName (envelope (opRenaming "renamed") None None).
Proof. repeat split. discriminate. Qed.

Lemma Run_assigns_no_field_witness :
  OperationName (self (Run (envelope (opReturning ErrNil ErrNil)
                                     (Some logEvent) (Some logCompletion)) [])) = "op" /\
  OperationFunc (self (Run (envelope (opReturning ErrNil ErrNil)
                                     (Some logEvent) (Some logCompletion)) [])) =
    Some (opReturning ErrNil ErrNil) /\
  EventRecorderFunc (self (Run (envelope (opReturning ErrNil ErrNil)
                                         (Some logEvent) (Some logCompletion)) [])) =
    Some logEvent /\
  CompleteFunc (self (Run (envelope (opReturning ErrNil ErrNil)
                                    (Some logEvent) (Some logCompletion)) [])) =
    Some logCompletion.
Proof.
  exact (proj2 (Run_assigns_no_field
                  (envelope (opReturning ErrNil ErrNil) (Some logEvent) (Some logCompletion))
                  [])
               eq_refl eq_refl eq_refl).
Defined.

(** ** Further runs of the sample envelopes *)

Lemma Run_returns_what_hooks_leave_witness :
  result (Run (envelope (opReturning (ErrString "e1") (ErrString "e2"))
                        (Some keepingHook)
                        (Some (writingThroughKept (ErrString "late")))) []) =
    Returns (ErrString "late") (ErrString "e2") /\
  result (Run (envelope (opReturning (ErrString "e1") (ErrString "e2"))
                        (Some (overwriteWith ErrNil))
                        (Some (overwriteWith (ErrString "translated")))) []) =
    Returns ErrNil (ErrString "translated").
Proof.
  split.
  - exact (Run_returns_what_hooks_leave
             (envelope (opReturning (ErrString "e1") (ErrString "e2"))
                       (Some keepingHook)
                       (Some (writingThroughKept (ErrString "late"))))
             [] _ _ _ _ _ eq_refl eq_refl eq_refl eq_refl).
  - exact (Run_returns_what_hooks_leave
             (envelope (opReturning (ErrString "e1") (ErrString "e2"))
                       (Some (overwriteWith ErrNil))
                       (Some (overwriteWith (ErrString "translated"))))
             [] _ _ _ _ _ eq_refl eq_refl eq_refl eq_refl).
Defined.

Lemma Run_threads_world_witness :
  world (Run (envelope (opReturning (ErrString "e1") ErrNil)
                       (Some logEvent) (Some logCompletion)) []) =
  ["operation"; "event"; "completion"].
Proof.
  exact (proj2 (proj2 (Run_threads_world
           (envelope (opReturning (ErrString "e1") ErrNil)
                     (Some logEvent) (Some logCompletion))
           [] _ _ _ _ _ eq_refl eq_refl))).
Defined.

Lemma Run_propagates_CompleteFunc_panic_witness :
  result (Run (envelope (opReturning ErrNil ErrNil)
                        (Some (panickingHook "event"))
                        (Some (panickingHook "completion"))) []) =
  Propagates (PanicOf "completion").
Proof.
  exact (Run_propagates_CompleteFunc_panic
           (envelope (opReturning ErrNil ErrNil)
                     (Some (panickingHook "event"))
                     (Some (panickingHook "completion")))
           [] _ _ _ _ _ _ eq_refl eq_refl eq_refl).
Defined.

Lemma Run_after_EventRecorderFunc_panic_witness :
  (seen_by FCompleteFunc
     (trace (Run (envelope (opReturning ErrNil (ErrString "e2"))
                           (Some (panickingHook "event")) (Some logCompletion)) [])) =
     [ErrString "e2"] /\
   result (Run (envelope (opReturning ErrNil (ErrString "e2"))
                         (Some (panickingHook "event")) (Some logCompletion)) []) =
     Propagates (PanicOf "event")) /\
  (seen_by FCompleteFunc
     (trace (Run (envelope (opReturning ErrNil (ErrString "e2"))
                           (Some (panickingHook "event")) (Some recoveringHook)) [])) =
     [ErrString "e2"] /\
   result (Run (envelope (opReturning ErrNil (ErrString "e2"))
                         (Some (panickingHook "event")) (Some recoveringHook)) []) =
     Returns ErrNil (ErrString "e2")).
Proof.
  split.
  - exact (Run_after_EventRecorderFunc_panic
             (envelope (opReturning ErrNil (ErrString "e2"))
                       (Some (panickingHook "event")) (Some logCompletion))
             [] _ _ _ _ _ _ eq_refl eq_refl eq_refl eq_refl).
  - exact (Run_after_EventRecorderFunc_panic
             (envelope (opReturning ErrNil (ErrString "e2"))
                       (Some (panickingHook "event")) (Some recoveringHook))
             [] _ _ _ _ _ _ eq_refl eq_refl eq_refl eq_refl).
Defined.

Lemma Run_nil_OperationFunc_unwinds_witness :
  count is_operation_call
    (trace (Run (envelopeWithoutOperation (Some logEvent) (Some logCompletion)) [])) = 0 /\
  hooks_called
    (trace (Run (envelopeWithoutOperation (Some logEvent) (Some logCompletion)) [])) =
    [FEventRecorderFunc; FCompleteFunc] /\
  seen_by FEventRecorderFunc
    (trace (Run (envelopeWithoutOperation (Some logEvent) (Some logCompletion)) [])) =
    [ErrNil] /\
  exists d,
    seen_by FCompleteFunc
      (trace (Run (envelopeWithoutOperation (Some logEvent) (Some logCompletion)) [])) =
      [d] /\
    world (Run (envelopeWithoutOperation (Some logEvent) (Some logCompletion)) []) =
      ["event"; "completion"].
Proof.
  exact (Run_nil_OperationFunc_unwinds
           (envelopeWithoutOperation (Some logEvent) (Some logCompletion))
           [] eq_refl).
Defined.
